(** * Grumble control-message handlers (message.go)

    A shallow embedding of the handlers of [message.go]:
    [handleCryptSetup], [handlePingMessage], [handleUserStateMessage],
    [handleTextMessage] and [handleUserStatsMessage].  The Go code runs against a [*Server] whose
    maps hold pointers to [Client] objects; the embedding keeps that
    shape: a registry from session ids to locations, and a heap from
    locations to client records.  Everything a handler hands to a
    collaborator that lives outside [message.go] ([log.Printf],
    [client.sendProtoMessage], [client.Panic]) is recorded, in order, in
    a trace of events. *)

From Stdlib Require Import ZArith List String Lia.
From Stdlib.Strings Require Import Byte.
From stdpp Require Import base option list gmap strings.

Open Scope Z_scope.

(** ** Machine integers *)

(** Go's fixed-width integer types, by signedness and width. *)
Inductive IntKind : Type :=
  | Signed (bits : Z)
  | Unsigned (bits : Z).

(** Conversion of a mathematical integer into a fixed-width type:
    unsigned types keep the low bits, signed ones are two's complement. *)
Definition wrap (k : IntKind) (z : Z) : Z :=
  match k with
  | Unsigned w => z mod 2 ^ w
  | Signed w => (z + 2 ^ (w - 1)) mod 2 ^ w - 2 ^ (w - 1)
  end.

(** The values a type holds. *)
Definition inRange (k : IntKind) (z : Z) : Prop :=
  match k with
  | Unsigned w => 0 <= z < 2 ^ w
  | Signed w => - 2 ^ (w - 1) <= z < 2 ^ (w - 1)
  end.

(** The conversion [uint32(x)]. *)
Definition uint32 (z : Z) : Z := wrap (Unsigned 32) z.

(** ** Message kinds

    [const ( MessageVersion = iota ... )] *)

Definition MessageVersion : Z := 0.
Definition MessageUDPTunnel : Z := 1.
Definition MessageAuthenticate : Z := 2.
Definition MessagePing : Z := 3.
Definition MessageReject : Z := 4.
Definition MessageServerSync : Z := 5.
Definition MessageChannelRemove : Z := 6.
Definition MessageChannelState : Z := 7.
Definition MessageUserRemove : Z := 8.
Definition MessageUserState : Z := 9.
Definition MessageBanList : Z := 10.
Definition MessageTextMessage : Z := 11.
Definition MessagePermissionDenied : Z := 12.
Definition MessageACL : Z := 13.
Definition MessageQueryUsers : Z := 14.
Definition MessageCryptSetup : Z := 15.
Definition MessageContextActionAdd : Z := 16.
Definition MessageContextAction : Z := 17.
Definition MessageUserList : Z := 18.
Definition MessageVoiceTarget : Z := 19.
Definition MessagePermissionQuery : Z := 20.
Definition MessageCodecVersion : Z := 21.
Definition MessageUserStats : Z := 22.
Definition MessageRequestBlob : Z := 23.
Definition MessageServerConfig : Z := 24.

(** ** Data model *)

(** Heap locations: the identity of a [*Client]. *)
Abbreviation loc := positive.

(** [type Message struct]; the handlers read [buf] only.  The [net.Addr]
    of a datagram plays no part in the control handlers and is left out. *)
Record Message : Type := mkMessage {
  buf : list byte;
  kind : Z;
  client : option loc
}.

(** The decoded protocol records, with the fields [message.go] touches.
    An optional scalar ([*uint32], [*bool], [*string]) is an [option];
    a [[]byte] is a list, the nil slice being the empty list. *)
Record CryptSetup : Type := mkCryptSetup {
  Key : list byte;
  ClientNonce : list byte;
  ServerNonce : list byte
}.

Record Ping : Type := mkPing {
  Timestamp : option Z;
  PGood : option Z;
  PLate : option Z;
  PLost : option Z;
  PResync : option Z
}.

Record TextMessage : Type := mkTextMessage {
  TActor : option Z;
  TSession : list Z;
  TMessage : option string
}.

Record UserState : Type := mkUserState {
  Session : option Z;
  Actor : option Z;
  ChannelId : option Z;
  Mute : option bool;
  Deaf : option bool;
  Suppress : option bool;
  PrioritySpeaker : option bool;
  Comment : option string;
  Texture : option (list byte);
  UserId : option Z;
  SelfDeaf : option bool;
  SelfMute : option bool;
  PluginContext : option (list byte);
  PluginIdentity : option string;
  Recording : option bool
}.

Inductive ProtoMsg : Type :=
  | PCryptSetup (m : CryptSetup)
  | PPing (m : Ping)
  | PTextMessage (m : TextMessage)
  | PUserState (m : UserState).

(** [cryptstate.CryptState], by the fields the handlers use.  The
    counters are integers of a Go type declared in package [cryptstate];
    their values are kept as [Z] and every store goes through [wrap]. *)
Record CryptState : Type := mkCryptState {
  EncryptIV : list byte;
  DecryptIV : list byte;
  Good : Z;
  Late : Z;
  Lost : Z;
  Resync : Z
}.

(** [Client], by the fields the handlers use: [Session] and [crypt].

    Modelled from the spec: the declaration of [Client] is not part of
    [message.go]; [currentChannel] is the "current channel reference
    (exactly one channel at a time)" of the data model, by channel id. *)
Record Client : Type := mkClient {
  CSession : Z;
  crypt : CryptState;
  currentChannel : Z
}.

(** Modelled from the spec: the declaration of [Channel] is not part of
    [message.go]; a channel has a "unique channel identifier", a "set of
    member session ids" and an "optional user-count limit". *)
Record Channel : Type := mkChannel {
  chanId : Z;
  members : gset Z;
  limit : option nat
}.

(** [Server], by its two maps: [clients map[uint32]*Client] and
    [channels map[int]*Channel].  A lookup that misses yields Go's nil
    pointer, here [None]. *)
Record Server : Type := mkServer {
  clients : gmap Z positive;
  channels : gmap Z Channel
}.

(** The store a handler runs against: the server and the client objects
    its pointers lead to. *)
Record World : Type := mkWorld {
  srv : Server;
  heap : gmap positive Client
}.

(** ** Effects *)

(** What a handler hands to its collaborators.  [ELog] keeps the format
    string of a [log.Printf]. *)
Inductive Event : Type :=
  | ELog (format : string)
  | ESend (to : loc) (kind : Z) (m : ProtoMsg)
  | EClientPanic (c : loc) (reason : string).

(** The run-time panics of Go that the handlers can raise. *)
Inductive GoPanic : Type :=
  | NilDereference
  | LogPanic (msg : string).

(** A handler either returns or panics; both leave a store and a trace. *)
Inductive Outcome (A : Type) : Type :=
  | Returned (a : A) (w : World) (t : list Event)
  | Panicked (p : GoPanic) (w : World) (t : list Event).

Arguments Returned {A} a w t.
Arguments Panicked {A} p w t.

Definition M (A : Type) : Type := World -> Outcome A.

Definition ret {A} (a : A) : M A := fun w => Returned a w [].

Definition bind {A B} (m : M A) (k : A -> M B) : M B :=
  fun w =>
    match m w with
    | Returned a w1 t1 =>
        match k a w1 with
        | Returned b w2 t2 => Returned b w2 (t1 ++ t2)
        | Panicked p w2 t2 => Panicked p w2 (t1 ++ t2)
        end
    | Panicked p w1 t1 => Panicked p w1 t1
    end.

Notation "'let*' x ':=' m 'in' k" := (bind m (fun x => k))
  (at level 10, x name, m at level 100, k at level 200).
Notation "m ;;; k" := (bind m (fun _ => k))
  (at level 100, k at level 200, right associativity).

Definition getWorld : M World := fun w => Returned w w [].
Definition emit (e : Event) : M unit := fun w => Returned tt w [e].
Definition panic {A} (p : GoPanic) : M A := fun w => Panicked p w [].

(** [log.Printf(format, ...)] *)
Definition logPrintf (format : string) : M unit := emit (ELog format).

(** [log.Panic(msg)]: print, then panic. *)
Definition logPanic {A} (msg : string) : M A :=
  emit (ELog msg) ;;; panic (LogPanic msg).

(** [c.sendProtoMessage(kind, m)] *)
Definition sendProtoMessage (c : loc) (kind : Z) (m : ProtoMsg) : M unit :=
  emit (ESend c kind m).

(** [c.Panic(reason)] *)
Definition clientPanic (c : loc) (reason : string) : M unit :=
  emit (EClientPanic c reason).

(** Reading through a pointer: nil faults.  A location outside the heap
    has no counterpart in Go, where a pointer always leads to an object;
    the model faults there too, and the properties below are stated for
    handlers whose client is allocated. *)
Definition deref (p : option loc) : M Client :=
  fun w =>
    match p with
    | None => Panicked NilDereference w []
    | Some l =>
        match heap w !! l with
        | Some c => Returned c w []
        | None => Panicked NilDereference w []
        end
    end.

(** Writing through a pointer. *)
Definition store (l : loc) (c : Client) : M unit :=
  fun w => Returned tt (mkWorld (srv w) (<[l := c]> (heap w))) [].

(** The built-in [copy(dst, src)]: the number of bytes copied is the
    smaller length; the rest of [dst] stays. *)
Definition copy (dst src : list byte) : list byte * nat :=
  let n := Nat.min (length dst) (length src) in
  (firstn n src ++ skipn n dst, n).

Arguments copy : simpl never.

(** The events of a trace that are messages sent to clients. *)
Definition sent (t : list Event) : list (positive * Z * ProtoMsg) :=
  omap (fun e => match e with ESend c k m => Some (c, k, m) | _ => None end) t.

(** The store and the trace an outcome ends with. *)
Definition finalWorld {A} (o : Outcome A) : World :=
  match o with Returned _ w _ => w | Panicked _ w _ => w end.

Definition traceOf {A} (o : Outcome A) : list Event :=
  match o with Returned _ _ t => t | Panicked _ _ t => t end.

Definition returns {A} (o : Outcome A) : bool :=
  match o with Returned _ _ _ => true | Panicked _ _ _ => false end.

(** ** The handlers *)

Section Handlers.

(** [cryptstate.AESBlockSize], the width of a cipher block. *)
Variable AESBlockSize : nat.

(** The Go type of the [CryptState] counters. *)
Variable counterTy : IntKind.

(** The width of Go's [int] on the platform. *)
Variable intBits : Z.

(** [proto.Unmarshal(msg.buf, &T{})] for each record type: the record
    as the decoder leaves it, and the error, if any. *)
Variable unmarshalCryptSetup : list byte -> CryptSetup * option string.
Variable unmarshalPing : list byte -> Ping * option string.
Variable unmarshalUserState : list byte -> UserState * option string.
Variable unmarshalTextMessage : list byte -> TextMessage * option string.

(** [mumbleproto.UserStats], of which [message.go] reads no field, and
    its decoder. *)
Variable UserStats : Type.
Variable unmarshalUserStats : list byte -> UserStats * option string.

Definition withClientNonce (cs : CryptSetup) (n : list byte) : CryptSetup :=
  mkCryptSetup (Key cs) n (ServerNonce cs).

Definition withResync (c : Client) (r : Z) : Client :=
  let s := crypt c in
  mkClient (CSession c)
    (mkCryptState (EncryptIV s) (DecryptIV s) (Good s) (Late s) (Lost s) r)
    (currentChannel c).

Definition withDecryptIV (c : Client) (iv : list byte) : Client :=
  let s := crypt c in
  mkClient (CSession c)
    (mkCryptState (EncryptIV s) iv (Good s) (Late s) (Lost s) (Resync s))
    (currentChannel c).

(** [func (server *Server) handleCryptSetup(client *Client, msg *Message)] *)
Definition handleCryptSetup (client : loc) (msg : Message) : M unit :=
  let (cs, err) := unmarshalCryptSetup (buf msg) in
  match err with
  | Some e => clientPanic client e
  | None =>
      if Nat.eqb (length (ClientNonce cs)) 0 then
        logPrintf "Requested crypt-nonce resync" ;;;
        let* c := deref (Some client) in
        let (nonce, n) :=
          copy (repeat x00 AESBlockSize) (EncryptIV (crypt c)) in
        let cs := withClientNonce cs nonce in
        if negb (Nat.eqb n AESBlockSize) then ret tt
        else sendProtoMessage client MessageCryptSetup (PCryptSetup cs)
      else
        logPrintf "Received client nonce" ;;;
        if negb (Nat.eqb (length (ClientNonce cs)) AESBlockSize) then ret tt
        else
          let* c := deref (Some client) in
          store client
            (withResync c (wrap counterTy (Resync (crypt c) + 1))) ;;;
          let* c := deref (Some client) in
          let (iv, n) := copy (DecryptIV (crypt c)) (ClientNonce cs) in
          store client (withDecryptIV c iv) ;;;
          if negb (Nat.eqb n AESBlockSize) then ret tt
          else logPrintf "Crypt re-sync successful"
  end.

(** [func (server *Server) handlePingMessage(client *Client, msg *Message)] *)
Definition handlePingMessage (client : loc) (msg : Message) : M unit :=
  let (ping, err) := unmarshalPing (buf msg) in
  match err with
  | Some e => clientPanic client e
  | None =>
      let* c := deref (Some client) in
      sendProtoMessage client MessagePing
        (PPing (mkPing (Timestamp ping)
                  (Some (uint32 (Good (crypt c))))
                  (Some (uint32 (Late (crypt c))))
                  (Some (uint32 (Lost (crypt c))))
                  (Some (uint32 (Resync (crypt c))))))
  end.

Definition withSession (u : UserState) (s : option Z) : UserState :=
  mkUserState s (Actor u) (ChannelId u) (Mute u) (Deaf u) (Suppress u)
    (PrioritySpeaker u) (Comment u) (Texture u) (UserId u) (SelfDeaf u)
    (SelfMute u) (PluginContext u) (PluginIdentity u) (Recording u).

Definition withActor (u : UserState) (a : option Z) : UserState :=
  mkUserState (Session u) a (ChannelId u) (Mute u) (Deaf u) (Suppress u)
    (PrioritySpeaker u) (Comment u) (Texture u) (UserId u) (SelfDeaf u)
    (SelfMute u) (PluginContext u) (PluginIdentity u) (Recording u).

(** [p != nil] for an optional field. *)
Definition present {A} (p : option A) : bool :=
  match p with Some _ => true | None => false end.

(** [int(x)] *)
Definition int (z : Z) : Z := wrap (Signed intBits) z.

(** The guard of the last [if] of [handleUserStateMessage]:
    [actor != user && (SelfDeaf != nil || ... || Recording != nil)]. *)
Definition selfFields (u : UserState) : bool :=
  present (SelfDeaf u) || present (SelfMute u)
  || present (Texture u)
  || present (PluginContext u)
  || present (PluginIdentity u)
  || present (Recording u).

Definition selfTargeting (actor user : option positive) (u : UserState)
  : bool :=
  bool_decide (actor <> user) && selfFields u.

(** [func (server *Server) handleUserStateMessage(client *Client, msg *Message)]

    The blocks that hold only comments in the source are kept, empty. *)
Definition handleUserStateMessage (client : loc) (msg : Message) : M unit :=
  logPrintf "UserState!" ;;;
  let (userstate, err) := unmarshalUserState (buf msg) in
  match err with
  | Some e => clientPanic client e
  | None => ret tt
  end ;;;
  match Session userstate with
  | None => logPrintf "UserState without session."
  | Some session =>
      let* w := getWorld in
      let* c := deref (Some client) in
      let actor := clients (srv w) !! CSession c in
      let user := clients (srv w) !! session in
      logPrintf "actor = %v" ;;;
      logPrintf "user = %v" ;;;
      let* u := deref user in
      let userstate := withSession userstate (Some (CSession u)) in
      let* a := deref actor in
      let userstate := withActor userstate (Some (CSession a)) in
      match ChannelId userstate with
      | Some cid =>
          let dstChan := channels (srv w) !! int cid in
          logPrintf "dstChan = %v"
      | None => ret tt
      end ;;;
      (if present (Mute userstate) || present (Deaf userstate)
          || present (Suppress userstate)
          || present (PrioritySpeaker userstate)
       then ret tt else ret tt) ;;;
      match Comment userstate with
      | Some comment =>
          logPrintf "comment = %v" ;;;
          if bool_decide (user <> actor) then ret tt else ret tt
      | None => ret tt
      end ;;;
      match Texture userstate with
      | Some _ => ret tt
      | None => ret tt
      end ;;;
      match UserId userstate with
      | Some _ => ret tt
      | None => ret tt
      end ;;;
      if selfTargeting actor user userstate then ret tt else ret tt
  end.

(** The first loop of [handleTextMessage]: resolve every destination,
    in order; a session that is not registered is a [log.Panic]. *)
Fixpoint lookupUsers (sessions : list Z) (users : list positive)
  : M (list positive) :=
  match sessions with
  | [] => ret users
  | s :: rest =>
      let* w := getWorld in
      match clients (srv w) !! s with
      | None => logPanic "Could not look up client by session"
      | Some user => lookupUsers rest (users ++ [user])
      end
  end.

(** [for _, user := range users { body }] *)
Fixpoint forEach (users : list positive) (body : positive -> M unit)
  : M unit :=
  match users with
  | [] => ret tt
  | user :: rest => body user ;;; forEach rest body
  end.

(** [func (server *Server) handleTextMessage(client *Client, msg *Message)] *)
Definition handleTextMessage (client : loc) (msg : Message) : M unit :=
  let (txtmsg, err) := unmarshalTextMessage (buf msg) in
  match err with
  | Some e => clientPanic client e
  | None =>
      let* users := lookupUsers (TSession txtmsg) [] in
      forEach users (fun user =>
        let* c := deref (Some client) in
        sendProtoMessage user MessageTextMessage
          (PTextMessage
             (mkTextMessage (Some (CSession c)) [] (TMessage txtmsg))))
  end.

(** [func (server *Server) handleUserStatsMessage(client *Client, msg *Message)]

    The [if err != nil] block has no [return]. *)
Definition handleUserStatsMessage (client : loc) (msg : Message) : M unit :=
  let (stats, err) := unmarshalUserStats (buf msg) in
  match err with
  | Some e => clientPanic client e
  | None => ret tt
  end ;;;
  logPrintf "UserStatsMessage".

End Handlers.

(** ** Reading the outcome of a handler *)

(** The log lines of a UserState request that runs to the end. *)
Definition userStateLog (u : UserState) : list Event :=
  [ELog "UserState!"; ELog "actor = %v"; ELog "user = %v"]
  ++ (if present (ChannelId u) then [ELog "dstChan = %v"] else [])
  ++ (if present (Comment u) then [ELog "comment = %v"] else []).

(** What a decoder error [err] makes a handler hand to [client.Panic]. *)
Definition decodeFault (client : positive) (err : option string)
  : list Event :=
  match err with
  | Some e => [EClientPanic client e]
  | None => []
  end.

(** An event that is a log line, or the report of the decoder error
    [err] to [client]; never a message sent. *)
Definition quietEvent (client : positive) (err : option string) (e : Event)
  : Prop :=
  match e with
  | ELog _ => True
  | EClientPanic c r => c = client /\ err = Some r
  | ESend _ _ _ => False
  end.

(** What a request to [client] leaves of the store [w] in [w']: the
    registry and the channels, every other client, and of [client] its
    session, channel, encrypt IV and good, late and lost counters, and
    the length of its decrypt IV. *)
Definition CryptFrame (client : positive) (w w' : World) : Prop :=
  srv w' = srv w
  /\ (forall l : positive, l <> client -> heap w' !! l = heap w !! l)
  /\ (heap w !! client = None -> w' = w)
  /\ (forall c : Client,
        heap w !! client = Some c ->
        exists c' : Client,
          heap w' !! client = Some c'
          /\ CSession c' = CSession c
          /\ currentChannel c' = currentChannel c
          /\ EncryptIV (crypt c') = EncryptIV (crypt c)
          /\ (Good (crypt c'), Late (crypt c'), Lost (crypt c'))
             = (Good (crypt c), Late (crypt c), Lost (crypt c))
          /\ length (DecryptIV (crypt c')) = length (DecryptIV (crypt c))).


(** The messages of a trace that were sent to the location [u]. *)
Definition sentTo (u : positive) (t : list Event)
  : list (positive * Z * ProtoMsg) :=
  filter (fun x => fst (fst x) = u) (sent t).

(** A sent message that is a relayed TextMessage with body [body]: kind
    [MessageTextMessage], no destination list. *)
Definition isRelay (body : option string) (x : positive * Z * ProtoMsg)
  : Prop :=
  snd (fst x) = MessageTextMessage
  /\ exists a : Z, snd x = PTextMessage (mkTextMessage (Some a) [] body).

(** The client object after a successful resync with nonce [n], the
    counters being of type [counterTy]. *)
Definition resynced (counterTy : IntKind) (c : Client) (n : list byte)
  : Client :=
  withDecryptIV (withResync c (wrap counterTy (Resync (crypt c) + 1))) n.

(** Every registered location holds a client whose session id is the
    key it is registered under. *)
Definition RegistryConsistent (w : World) : Prop :=
  forall (s : Z) (l : positive),
    clients (srv w) !! s = Some l ->
    exists c : Client, heap w !! l = Some c /\ CSession c = s.

(** The relayed text message, as the second loop of [handleTextMessage]
    builds it. *)
Definition relayed (sender : Client) (txtmsg : TextMessage) : ProtoMsg :=
  PTextMessage (mkTextMessage (Some (CSession sender)) [] (TMessage txtmsg)).

(** The text of the [log.Panic] of [handleTextMessage]. *)
Definition missingClient : string := "Could not look up client by session".

(** ** The channel move of the specification *)

(** Modelled from the spec: the permission engine is not part of
    [message.go]; these are the two permissions a channel move consults. *)
Inductive Permission : Type :=
  | PermEnter
  | PermMove.

(** Modelled from the spec: the checks of a channel move, none of which
    [message.go] performs: the destination exists, the actor has [move]
    on the current channel of the user when it moves somebody else, the
    user has [enter] on the destination, and the destination is below its
    member limit.  [hasPermission] stands for the permission engine. *)
Definition moveChecksPass
    (hasPermission : World -> positive -> Z -> Permission -> bool)
    (w : World) (actor user : positive) (cu : Client) (dst : Z) : bool :=
  match channels (srv w) !! dst with
  | None => false
  | Some ch =>
      (bool_decide (actor = user)
       || hasPermission w actor (currentChannel cu) PermMove)
      && hasPermission w user dst PermEnter
      && match limit ch with
         | None => true
         | Some n => bool_decide (size (members ch) < n)%nat
         end
  end.

(** Modelled from the spec: the effect of a channel move of the user
    [cu], held at [user], to channel [dst], read off the store [w']
    after the request: the current channel of the user is [dst], [dst]
    has the user as a member, and the channel it left has not. *)
Definition movedTo (w' : World) (user : positive) (cu : Client) (dst : Z)
  : Prop :=
  (exists cu' : Client,
      heap w' !! user = Some cu' /\ currentChannel cu' = dst)
  /\ (exists ch : Channel,
        channels (srv w') !! dst = Some ch /\ CSession cu ∈ members ch)
  /\ (currentChannel cu <> dst ->
      forall old : Channel,
        channels (srv w') !! currentChannel cu = Some old ->
        CSession cu ∉ members old).

(** ** A small server *)

Module Ex.

(** A decoder that yields the record [m]. *)
Definition decodeAs {T : Type} (m : T) : list byte -> T * option string :=
  fun _ => (m, None).

Definition encIV : list byte := repeat x01 16.
Definition decIV : list byte := repeat x02 16.
Definition nonce : list byte := repeat xaa 16.
Definition shortNonce : list byte := repeat xaa 5.

Definition cryptOf (good late lost resync : Z) : CryptState :=
  mkCryptState encIV decIV good late lost resync.

(** Three connected clients, all in the root channel. *)
Definition alice : Client := mkClient 3 (cryptOf 10 2 1 4) 0.
Definition bob : Client := mkClient 5 (cryptOf 0 0 0 0) 0.
Definition carol : Client := mkClient 7 (cryptOf 7 0 0 1) 0.

Definition root : Channel := mkChannel 0 {[3; 5; 7]} None.
Definition lounge : Channel := mkChannel 1 ∅ None.

Definition server : Server :=
  mkServer
    (<[3 := 1%positive]> (<[5 := 2%positive]> (<[7 := 3%positive]> ∅)))
    (<[0 := root]> (<[1 := lounge]> ∅)).

Definition world : World :=
  mkWorld server
    (<[1%positive := alice]>
       (<[2%positive := bob]> (<[3%positive := carol]> ∅))).

(** A client whose encrypt IV is shorter than a block. *)
Definition dave : Client :=
  mkClient 9 (mkCryptState (repeat x01 4) decIV 0 0 0 0) 0.

Definition worldShortIV : World :=
  mkWorld server (<[1%positive := dave]> ∅).

Definition message (k : Z) : Message := mkMessage [] k (Some 1%positive).

Definition emptyUserState : UserState :=
  mkUserState None None None None None None None None None None None None
    None None None.

Definition withSelfMute (u : UserState) (b : bool) : UserState :=
  mkUserState (Session u) (Actor u) (ChannelId u) (Mute u) (Deaf u)
    (Suppress u) (PrioritySpeaker u) (Comment u) (Texture u) (UserId u)
    (SelfDeaf u) (Some b) (PluginContext u) (PluginIdentity u)
    (Recording u).

Definition withComment (u : UserState) (c : string) : UserState :=
  mkUserState (Session u) (Actor u) (ChannelId u) (Mute u) (Deaf u)
    (Suppress u) (PrioritySpeaker u) (Some c) (Texture u) (UserId u)
    (SelfDeaf u) (SelfMute u) (PluginContext u) (PluginIdentity u)
    (Recording u).

Definition withChannelId (u : UserState) (c : Z) : UserState :=
  mkUserState (Session u) (Actor u) (Some c) (Mute u) (Deaf u)
    (Suppress u) (PrioritySpeaker u) (Comment u) (Texture u) (UserId u)
    (SelfDeaf u) (SelfMute u) (PluginContext u) (PluginIdentity u)
    (Recording u).

Definition withUserId (u : UserState) (i : Z) : UserState :=
  mkUserState (Session u) (Actor u) (ChannelId u) (Mute u) (Deaf u)
    (Suppress u) (PrioritySpeaker u) (Comment u) (Texture u) (Some i)
    (SelfDeaf u) (SelfMute u) (PluginContext u) (PluginIdentity u)
    (Recording u).

(** Alice (session 3) sets self-mute and a comment on Bob (session 5). *)
Definition muteBob : UserState :=
  withComment (withSelfMute (withSession emptyUserState (Some 5)) true)
    "hello".

(** Alice names session 99, which nobody holds. *)
Definition unknownUser : UserState :=
  withComment (withSession emptyUserState (Some 99)) "hello".

(** Alice asks to be registered with user id 0. *)
Definition registerSelf : UserState :=
  withUserId (withSession emptyUserState (Some 3)) 0.

(** Alice moves herself from the root channel to channel 1. *)
Definition moveSelf : UserState :=
  withChannelId (withSession emptyUserState (Some 3)) 1.

(** Everybody holds every permission. *)
Definition allowAll : World -> positive -> Z -> Permission -> bool :=
  fun _ _ _ _ => true.

(** Text from Alice to sessions 5 and 7, and to 5 and the unknown 99. *)
Definition toBobAndCarol : TextMessage :=
  mkTextMessage None [5; 7] (Some "hi"%string).
Definition toBobAndNobody : TextMessage :=
  mkTextMessage None [5; 99] (Some "hi"%string).

(** The three kinds of CryptSetup request, and a ping. *)
Definition resyncRequest : CryptSetup := mkCryptSetup [] nonce [].
Definition nonceRequest : CryptSetup := mkCryptSetup [] [] [].
Definition badRequest : CryptSetup := mkCryptSetup [] shortNonce [].
Definition ping : Ping := mkPing (Some 123456) None None None None.

(** A decoder that fails with the error [e], leaving the record [m]. *)
Definition failAs {T : Type} (m : T) (e : string)
  : list byte -> T * option string :=
  fun _ => (m, Some e).

(** A client whose decrypt IV is shorter than a block, and counters past
    the range of a [uint32]. *)
Definition erin : Client :=
  mkClient 11 (mkCryptState encIV (repeat x02 4) 4294967297 (-1) 0 6) 0.

Definition worldErin : World :=
  mkWorld server (<[1%positive := erin]> ∅).

(** Alice writes to herself, to Bob and to herself again. *)
Definition toSelfTwice : TextMessage :=
  mkTextMessage None [3; 5; 3] (Some "hi"%string).

(** A UserState without a session. *)
Definition noSession : UserState := withComment emptyUserState "hello".

End Ex.

(** ** Properties of the handlers *)

Section Properties.

Variable AESBlockSize : nat.
Variable counterTy : IntKind.
Variable intBits : Z.
Variable unmarshalCryptSetup : list byte -> CryptSetup * option string.
Variable unmarshalPing : list byte -> Ping * option string.
Variable unmarshalUserState : list byte -> UserState * option string.
Variable unmarshalTextMessage : list byte -> TextMessage * option string.
Variable UserStats : Type.
Variable unmarshalUserStats : list byte -> UserStats * option string.

(** Running a handler: unfold the monad and compute. *)
Ltac run :=
  unfold bind, logPrintf, logPanic, emit, deref, store, sendProtoMessage,
    clientPanic, getWorld, ret, panic; cbn.

(** *** Integers and [copy] *)

Lemma wrap_inRange (k : IntKind) (z : Z) : inRange k z -> wrap k z = z.
Proof.
  destruct k as [w|w]; simpl; intros Hr.
  - destruct (Z_lt_le_dec w 1) as [Hw|Hw].
    + assert (2 ^ (w - 1) = 0) by (apply Z.pow_neg_r; lia). lia.
    + assert (2 ^ w = 2 * 2 ^ (w - 1)) as E.
      { replace w with (Z.succ (w - 1)) at 1 by lia.
        apply Z.pow_succ_r; lia. }
      rewrite Z.mod_small; lia.
  - apply Z.mod_small; exact Hr.
Qed.

Lemma copy_same_length (dst src : list byte) :
  length dst = length src -> copy dst src = (src, length src).
Proof.
  intros E. unfold copy. rewrite E, Nat.min_id.
  rewrite firstn_all. rewrite <- E, drop_all, app_nil_r. reflexivity.
Qed.

(** *** handleCryptSetup *)

(** What the nonce branch does once the length check has passed. *)
Lemma handleCryptSetup_nonce_branch (client : positive) (msg : Message)
    (cs : CryptSetup) (c : Client) (w : World) :
  unmarshalCryptSetup (buf msg) = (cs, None) ->
  heap w !! client = Some c ->
  ClientNonce cs <> [] ->
  length (ClientNonce cs) = AESBlockSize ->
  length (DecryptIV (crypt c)) = AESBlockSize ->
  handleCryptSetup AESBlockSize counterTy unmarshalCryptSetup client msg w
  = Returned tt
      (mkWorld (srv w) (<[client := resynced counterTy c (ClientNonce cs)]> (heap w)))
      [ELog "Received client nonce"; ELog "Crypt re-sync successful"].
Proof.
  intros Hdec Hc Hne Hlen Hiv.
  unfold handleCryptSetup. rewrite Hdec.
  destruct (ClientNonce cs) as [|b n] eqn:En; [congruence|].
  rewrite <- En in *. clear Hne.
  assert (Nat.eqb (length (ClientNonce cs)) 0 = false) as ->.
  { rewrite En. reflexivity. }
  rewrite Hlen, Nat.eqb_refl. simpl negb. cbv iota.
  unfold bind, logPrintf, emit, deref, store. cbn.
  rewrite Hc. cbn. rewrite lookup_insert_eq. cbn.
  rewrite copy_same_length by (simpl; congruence). cbn.
  rewrite Hlen, Nat.eqb_refl. cbn.
  rewrite insert_insert_eq. reflexivity.
Qed.

(** C4: a CryptSetup request whose client nonce is exactly one cipher
    block wide overwrites the decrypt IV of the client with that nonce
    and adds exactly 1 to the resync counter.  The decrypt IV has block
    width, and the counter is not at the largest value of its type. *)
Theorem handleCryptSetup_resync (client : positive) (msg : Message)
    (cs : CryptSetup) (c : Client) (w : World) :
  unmarshalCryptSetup (buf msg) = (cs, None) ->
  heap w !! client = Some c ->
  (0 < AESBlockSize)%nat ->
  length (ClientNonce cs) = AESBlockSize ->
  length (DecryptIV (crypt c)) = AESBlockSize ->
  inRange counterTy (Resync (crypt c) + 1) ->
  exists c' : Client,
    handleCryptSetup AESBlockSize counterTy unmarshalCryptSetup client msg w
    = Returned tt (mkWorld (srv w) (<[client := c']> (heap w)))
        [ELog "Received client nonce"; ELog "Crypt re-sync successful"]
    /\ DecryptIV (crypt c') = ClientNonce cs
    /\ Resync (crypt c') = Resync (crypt c) + 1
    /\ EncryptIV (crypt c') = EncryptIV (crypt c)
    /\ (Good (crypt c'), Late (crypt c'), Lost (crypt c'))
       = (Good (crypt c), Late (crypt c), Lost (crypt c)).
Proof.
  intros Hdec Hc Hpos Hlen Hiv Hr.
  exists (resynced counterTy c (ClientNonce cs)).
  split.
  - apply handleCryptSetup_nonce_branch; try assumption.
    intros E. rewrite E in Hlen. simpl in Hlen. lia.
  - unfold resynced. cbn. rewrite (wrap_inRange _ _ Hr). auto.
Qed.

(** C5: a CryptSetup request whose client nonce is not empty and not one
    cipher block wide is ignored: the store (the crypt state with it)
    is unchanged, nothing is sent and the client is not disconnected;
    the only event is a log line. *)
Theorem handleCryptSetup_bad_nonce (client : positive) (msg : Message)
    (cs : CryptSetup) (w : World) :
  unmarshalCryptSetup (buf msg) = (cs, None) ->
  ClientNonce cs <> [] ->
  length (ClientNonce cs) <> AESBlockSize ->
  handleCryptSetup AESBlockSize counterTy unmarshalCryptSetup client msg w
  = Returned tt w [ELog "Received client nonce"].
Proof.
  intros Hdec Hne Hlen.
  unfold handleCryptSetup. rewrite Hdec.
  destruct (ClientNonce cs) as [|b n] eqn:En; [congruence|].
  rewrite <- En in *.
  assert (Nat.eqb (length (ClientNonce cs)) 0 = false) as ->.
  { rewrite En. reflexivity. }
  apply Nat.eqb_neq in Hlen. rewrite Hlen.
  run. reflexivity.
Qed.

(** C6: a CryptSetup request without a client nonce is answered with
    one CryptSetup message to the requesting client whose client nonce
    is the encrypt IV of that client; when fewer than a block of bytes
    can be copied nothing is sent.  The store is unchanged either way. *)
Theorem handleCryptSetup_request_nonce (client : positive) (msg : Message)
    (cs : CryptSetup) (c : Client) (w : World) :
  unmarshalCryptSetup (buf msg) = (cs, None) ->
  ClientNonce cs = [] ->
  heap w !! client = Some c ->
  (length (EncryptIV (crypt c)) = AESBlockSize ->
   handleCryptSetup AESBlockSize counterTy unmarshalCryptSetup client msg w
   = Returned tt w
       [ELog "Requested crypt-nonce resync";
        ESend client MessageCryptSetup
          (PCryptSetup (withClientNonce cs (EncryptIV (crypt c))))])
  /\ ((length (EncryptIV (crypt c)) < AESBlockSize)%nat ->
      handleCryptSetup AESBlockSize counterTy unmarshalCryptSetup client msg w
      = Returned tt w [ELog "Requested crypt-nonce resync"]).
Proof.
  intros Hdec Hn Hc.
  unfold handleCryptSetup. rewrite Hdec, Hn. cbn [length Nat.eqb].
  run. rewrite Hc. cbn. split; intros Hlen.
  - rewrite copy_same_length by (rewrite repeat_length; congruence).
    rewrite Hlen, Nat.eqb_refl. cbn. reflexivity.
  - unfold copy. rewrite repeat_length.
    rewrite Nat.min_r by lia.
    assert (Nat.eqb (length (EncryptIV (crypt c))) AESBlockSize = false)
      as -> by (apply Nat.eqb_neq; lia).
    cbn. reflexivity.
Qed.

(** *** handlePingMessage *)

(** The reply to a ping, for any values of the counters. *)
Lemma handlePingMessage_reply (client : positive) (msg : Message)
    (ping : Ping) (c : Client) (w : World) :
  unmarshalPing (buf msg) = (ping, None) ->
  heap w !! client = Some c ->
  handlePingMessage unmarshalPing client msg w
  = Returned tt w
      [ESend client MessagePing
         (PPing (mkPing (Timestamp ping)
                   (Some (uint32 (Good (crypt c))))
                   (Some (uint32 (Late (crypt c))))
                   (Some (uint32 (Lost (crypt c))))
                   (Some (uint32 (Resync (crypt c))))))].
Proof.
  intros Hdec Hc. unfold handlePingMessage. rewrite Hdec.
  run. rewrite Hc. reflexivity.
Qed.

(** C10: a Ping that decodes is answered with exactly one Ping to the
    originating client, carrying the timestamp of the request and the
    good, late, lost and resync counters of the client (counters that
    fit the 32-bit fields of the reply); the store is unchanged. *)
Theorem handlePingMessage_echo (client : positive) (msg : Message)
    (ping : Ping) (c : Client) (w : World) :
  unmarshalPing (buf msg) = (ping, None) ->
  heap w !! client = Some c ->
  inRange (Unsigned 32) (Good (crypt c)) ->
  inRange (Unsigned 32) (Late (crypt c)) ->
  inRange (Unsigned 32) (Lost (crypt c)) ->
  inRange (Unsigned 32) (Resync (crypt c)) ->
  handlePingMessage unmarshalPing client msg w
  = Returned tt w
      [ESend client MessagePing
         (PPing (mkPing (Timestamp ping)
                   (Some (Good (crypt c)))
                   (Some (Late (crypt c)))
                   (Some (Lost (crypt c)))
                   (Some (Resync (crypt c)))))].
Proof.
  intros Hdec Hc Hg Hl Ho Hr.
  rewrite (handlePingMessage_reply _ _ _ _ _ Hdec Hc).
  unfold uint32.
  rewrite (wrap_inRange _ _ Hg), (wrap_inRange _ _ Hl),
    (wrap_inRange _ _ Ho), (wrap_inRange _ _ Hr).
  reflexivity.
Qed.

(** *** handleUserStateMessage *)

(** The handler writes nothing and sends nothing, whatever the request
    and however it ends. *)
Lemma handleUserStateMessage_frame (client : positive) (msg : Message)
    (w : World) :
  let o := handleUserStateMessage intBits unmarshalUserState client msg w in
  finalWorld o = w /\ sent (traceOf o) = [].
Proof.
  unfold handleUserStateMessage.
  destruct (unmarshalUserState (buf msg)) as [u [e|]];
    destruct (Session u) as [s|]; run; try (split; reflexivity).
  all: destruct (heap w !! client) as [c|]; cbn; try (split; reflexivity).
  all: destruct (clients (srv w) !! s) as [user|]; cbn;
    try (split; reflexivity).
  all: destruct (heap w !! user) as [cu|]; cbn; try (split; reflexivity).
  all: destruct (clients (srv w) !! CSession c) as [actor|]; cbn;
    try (split; reflexivity).
  all: destruct (heap w !! actor) as [ca|]; cbn; try (split; reflexivity).
  all: destruct (ChannelId u), (Comment u), (Texture u), (UserId u); cbn.
  all: repeat match goal with
         | |- context [if ?b then _ else _] => destruct b; cbn
         end.
  all: split; reflexivity.
Qed.

(** With the actor and the user both registered, the handler runs to
    its end: it returns, the store is the one it started from, and the
    trace holds log lines only. *)
Lemma handleUserStateMessage_returns (client : positive) (msg : Message)
    (u : UserState) (s : Z) (c ca cu : Client) (actor user : positive)
    (w : World) :
  unmarshalUserState (buf msg) = (u, None) ->
  Session u = Some s ->
  heap w !! client = Some c ->
  clients (srv w) !! CSession c = Some actor ->
  clients (srv w) !! s = Some user ->
  heap w !! actor = Some ca ->
  heap w !! user = Some cu ->
  handleUserStateMessage intBits unmarshalUserState client msg w
  = Returned tt w (userStateLog u).
Proof.
  intros Hdec Hs Hc Ha Hu Hca Hcu.
  unfold handleUserStateMessage, userStateLog. rewrite Hdec, Hs.
  run. rewrite Hc. cbn. rewrite Hu, Ha. cbn. rewrite Hcu. cbn.
  rewrite Hca. cbn.
  destruct (ChannelId u), (Comment u), (Texture u), (UserId u); cbn.
  all: repeat match goal with
         | |- context [if ?b then _ else _] => destruct b; cbn
         end.
  all: reflexivity.
Qed.

(** A session id that nobody holds makes the handler read through a
    nil pointer. *)
Lemma handleUserStateMessage_unknown_user (client : positive)
    (msg : Message) (u : UserState) (s : Z) (c : Client) (w : World) :
  unmarshalUserState (buf msg) = (u, None) ->
  Session u = Some s ->
  heap w !! client = Some c ->
  clients (srv w) !! s = None ->
  handleUserStateMessage intBits unmarshalUserState client msg w
  = Panicked NilDereference w
      [ELog "UserState!"; ELog "actor = %v"; ELog "user = %v"].
Proof.
  intros Hdec Hs Hc Hu.
  unfold handleUserStateMessage. rewrite Hdec, Hs.
  run. rewrite Hc. cbn. rewrite Hu. cbn. reflexivity.
Qed.

(** C1: a UserState request whose actor and target user hold different
    sessions and which carries one of self-deaf, self-mute, texture,
    plugin-context, plugin-identity or recording is dropped whole: the
    guard against self-targeting fires, the handler returns with the
    store it started from, and nothing but log lines leaves it, so no
    field of the request is applied, a comment sent along included. *)
Theorem handleUserStateMessage_self_targeting (client : positive)
    (msg : Message) (u : UserState) (s : Z) (c ca cu : Client)
    (actor user : positive) (w : World) :
  unmarshalUserState (buf msg) = (u, None) ->
  Session u = Some s ->
  heap w !! client = Some c ->
  clients (srv w) !! CSession c = Some actor ->
  clients (srv w) !! s = Some user ->
  heap w !! actor = Some ca ->
  heap w !! user = Some cu ->
  CSession ca <> CSession cu ->
  selfFields u = true ->
  selfTargeting (Some actor) (Some user) u = true
  /\ handleUserStateMessage intBits unmarshalUserState client msg w
     = Returned tt w (userStateLog u)
  /\ sent (userStateLog u) = [].
Proof.
  intros Hdec Hs Hc Ha Hu Hca Hcu Hne Hself. split; [|split].
  - unfold selfTargeting. rewrite Hself, andb_true_r.
    apply bool_decide_eq_true. intros E. simplify_eq.
  - eapply handleUserStateMessage_returns; eassumption.
  - unfold userStateLog.
    destruct (ChannelId u), (Comment u); reflexivity.
Qed.

(** C8: a UserState request that carries a user id of 0 or more assigns
    no registered identity: however the handler ends, the store (every
    client object in it) is the one it started from and nothing is
    sent. *)
Theorem handleUserStateMessage_registration (client : positive)
    (msg : Message) (u : UserState) (v : Z) (w : World) :
  unmarshalUserState (buf msg) = (u, None) ->
  UserId u = Some v ->
  0 <= v ->
  let o := handleUserStateMessage intBits unmarshalUserState client msg w in
  finalWorld o = w /\ sent (traceOf o) = [].
Proof.
  intros _ _ _. apply handleUserStateMessage_frame.
Qed.

(** C9, as the code has it: a UserState request that carries a channel
    id moves nobody.  Whether or not the checks of a move would pass,
    the handler writes nothing: the member set of every channel and the
    current channel of every client stay as they were; with the actor
    and the user registered it returns after logging the destination. *)
Theorem handleUserStateMessage_channel_id (client : positive)
    (msg : Message) (u : UserState) (cid : Z) (w : World) :
  unmarshalUserState (buf msg) = (u, None) ->
  ChannelId u = Some cid ->
  let o := handleUserStateMessage intBits unmarshalUserState client msg w in
  finalWorld o = w
  /\ sent (traceOf o) = []
  /\ forall (s : Z) (c ca cu : Client) (actor user : positive),
       Session u = Some s ->
       heap w !! client = Some c ->
       clients (srv w) !! CSession c = Some actor ->
       clients (srv w) !! s = Some user ->
       heap w !! actor = Some ca ->
       heap w !! user = Some cu ->
       o = Returned tt w (userStateLog u)
         /\ In (ELog "dstChan = %v") (userStateLog u).
Proof.
  intros Hdec Hcid o.
  destruct (handleUserStateMessage_frame client msg w) as [Hw Hs].
  split; [exact Hw|]. split; [exact Hs|].
  intros s c ca cu actor user HS Hc Ha Hu Hca Hcu. split.
  - eapply handleUserStateMessage_returns; eassumption.
  - unfold userStateLog. rewrite Hcid. cbn. auto.
Qed.

(** *** handleTextMessage *)

(** The first loop, when every destination is registered. *)
Lemma lookupUsers_resolved (sessions : list Z) (users acc : list positive)
    (w : World) :
  Forall2 (fun s u => clients (srv w) !! s = Some u) sessions users ->
  lookupUsers sessions acc w = Returned (acc ++ users) w [].
Proof.
  intros H. revert acc.
  induction H as [|s u sessions users Hs _ IH]; intros acc.
  - cbn. unfold ret. rewrite app_nil_r. reflexivity.
  - cbn [lookupUsers]. run. rewrite Hs. rewrite IH.
    rewrite <- app_assoc. reflexivity.
Qed.

(** The first loop, when some destination is not registered: the panic
    of [log.Panic], before anything else has happened. *)
Lemma lookupUsers_missing (sessions : list Z) (acc : list positive)
    (w : World) :
  Exists (fun s => clients (srv w) !! s = None) sessions ->
  lookupUsers sessions acc w
  = Panicked (LogPanic missingClient) w [ELog missingClient].
Proof.
  revert acc. induction sessions as [|s rest IH]; intros acc H.
  - inversion H.
  - cbn [lookupUsers]. run.
    destruct (clients (srv w) !! s) as [u|] eqn:Hs.
    + rewrite IH; [reflexivity|].
      inversion H as [? ? Hhd|? ? Htl]; subst; [congruence|exact Htl].
    + reflexivity.
Qed.

(** The second loop: one message per resolved user, in order. *)
Lemma forEach_relay (client : positive) (c : Client) (txtmsg : TextMessage)
    (users : list positive) (w : World) :
  heap w !! client = Some c ->
  forEach users (fun user =>
    let* c := deref (Some client) in
    sendProtoMessage user MessageTextMessage
      (PTextMessage (mkTextMessage (Some (CSession c)) [] (TMessage txtmsg))))
    w
  = Returned tt w
      (map (fun u => ESend u MessageTextMessage (relayed c txtmsg)) users).
Proof.
  intros Hc. induction users as [|u rest IH].
  - reflexivity.
  - cbn [forEach]. unfold bind at 1. unfold bind at 1.
    unfold deref at 1. rewrite Hc. unfold sendProtoMessage at 1.
    unfold emit at 1. rewrite IH. reflexivity.
Qed.

Lemma resolve_all (sessions : list Z) (w : World) :
  Forall (fun s => is_Some (clients (srv w) !! s)) sessions ->
  exists users : list positive,
    Forall2 (fun s u => clients (srv w) !! s = Some u) sessions users.
Proof.
  induction 1 as [|s rest [u Hu] _ [users IH]].
  - exists []. constructor.
  - exists (u :: users). constructor; assumption.
Qed.

(** C7: a TextMessage whose destinations are all registered produces
    exactly one outbound TextMessage per listed destination, in order,
    each sent to the client registered under that session and each with
    the session id of the sender as actor; with a consistent registry the
    sender gets none unless its own session is listed.  The store is
    unchanged. *)
Theorem handleTextMessage_fanout (client : positive) (msg : Message)
    (txtmsg : TextMessage) (c : Client) (w : World) :
  unmarshalTextMessage (buf msg) = (txtmsg, None) ->
  heap w !! client = Some c ->
  Forall (fun s => is_Some (clients (srv w) !! s)) (TSession txtmsg) ->
  exists users : list positive,
    Forall2 (fun s u => clients (srv w) !! s = Some u) (TSession txtmsg) users
    /\ handleTextMessage unmarshalTextMessage client msg w
       = Returned tt w
           (map (fun u =>
                   ESend u MessageTextMessage
                     (PTextMessage
                        (mkTextMessage (Some (CSession c)) []
                           (TMessage txtmsg))))
              users)
    /\ (RegistryConsistent w ->
        CSession c ∉ TSession txtmsg ->
        client ∉ users).
Proof.
  intros Hdec Hc Hall.
  destruct (resolve_all _ _ Hall) as [users Hus].
  exists users. split; [exact Hus|]. split.
  - unfold handleTextMessage. rewrite Hdec.
    unfold bind at 1. rewrite (lookupUsers_resolved _ _ [] _ Hus).
    rewrite app_nil_l. rewrite (forEach_relay _ _ _ _ _ Hc).
    reflexivity.
  - intros Hreg Hnot Hin.
    apply list_elem_of_lookup in Hin as [i Hi].
    destruct (Forall2_lookup_r _ _ _ _ _ Hus Hi) as (s & Hsi & Hs).
    destruct (Hreg _ _ Hs) as (c' & Hc' & Hsess).
    apply Hnot. rewrite Hc in Hc'. injection Hc' as <-.
    rewrite Hsess. apply list_elem_of_lookup. exists i. exact Hsi.
Qed.

(** A destination that is not registered ends the handler in the first
    loop. *)
Lemma handleTextMessage_panics_on_missing (client : positive)
    (msg : Message) (txtmsg : TextMessage) (w : World) :
  unmarshalTextMessage (buf msg) = (txtmsg, None) ->
  Exists (fun s => clients (srv w) !! s = None) (TSession txtmsg) ->
  handleTextMessage unmarshalTextMessage client msg w
  = Panicked (LogPanic missingClient) w [ELog missingClient].
Proof.
  intros Hdec Hex. unfold handleTextMessage. rewrite Hdec.
  unfold bind at 1. rewrite (lookupUsers_missing _ _ _ Hex). reflexivity.
Qed.

(** C3, as the code has it: a TextMessage with a destination session
    that is not registered ends [handleTextMessage] in the panic of its
    [log.Panic], raised while the destinations are resolved: nothing has
    been sent, to no destination, and the store is unchanged; the handler
    does not return. *)
Theorem handleTextMessage_unknown_destination (client : positive)
    (msg : Message) (txtmsg : TextMessage) (w : World) :
  unmarshalTextMessage (buf msg) = (txtmsg, None) ->
  Exists (fun s => clients (srv w) !! s = None) (TSession txtmsg) ->
  handleTextMessage unmarshalTextMessage client msg w
  = Panicked (LogPanic missingClient) w [ELog missingClient].
Proof.
  intros Hdec Hex.
  eapply handleTextMessage_panics_on_missing; eassumption.
Qed.

(** *** Decoder errors *)

(** X1: in [handleCryptSetup], [handlePingMessage] and
    [handleTextMessage] a decoder error is handed to [client.Panic] of
    the originating client and ends the handler: nothing is sent, no
    destination is resolved and the store is unchanged. *)
Theorem decode_error_ends_handler (client : positive) (m1 m2 m3 : Message)
    (cs : CryptSetup) (ping : Ping) (txtmsg : TextMessage)
    (e1 e2 e3 : string) (w : World) :
  unmarshalCryptSetup (buf m1) = (cs, Some e1) ->
  unmarshalPing (buf m2) = (ping, Some e2) ->
  unmarshalTextMessage (buf m3) = (txtmsg, Some e3) ->
  handleCryptSetup AESBlockSize counterTy unmarshalCryptSetup client m1 w
  = Returned tt w [EClientPanic client e1]
  /\ handlePingMessage unmarshalPing client m2 w
     = Returned tt w [EClientPanic client e2]
  /\ handleTextMessage unmarshalTextMessage client m3 w
     = Returned tt w [EClientPanic client e3].
Proof.
  intros H1 H2 H3.
  unfold handleCryptSetup, handlePingMessage, handleTextMessage.
  rewrite H1, H2, H3. repeat split; reflexivity.
Qed.


(** X3: a UserState request without a session is dropped with a log
    line before the registry or any client object is read: the handler
    returns, whatever the store holds, and the store is unchanged. *)
Theorem handleUserStateMessage_without_session (client : positive)
    (msg : Message) (u : UserState) (err : option string) (w : World) :
  unmarshalUserState (buf msg) = (u, err) ->
  Session u = None ->
  handleUserStateMessage intBits unmarshalUserState client msg w
  = Returned tt w
      (ELog "UserState!"
         :: decodeFault client err ++ [ELog "UserState without session."]).
Proof.
  intros Hdec Hs. unfold handleUserStateMessage. rewrite Hdec, Hs.
  destruct err; reflexivity.
Qed.


(** X5: [handleUserStateMessage] never sends a message and never writes
    to the store, for any request, decoded or not, and whether it returns
    or panics: all it emits are log lines and, after a decoder error,
    the one report of that error to the originating client. *)
Theorem handleUserStateMessage_quiet (client : positive) (msg : Message)
    (w : World) :
  let o := handleUserStateMessage intBits unmarshalUserState client msg w in
  finalWorld o = w
  /\ Forall (quietEvent client (snd (unmarshalUserState (buf msg))))
       (traceOf o).
Proof.
  unfold handleUserStateMessage.
  destruct (unmarshalUserState (buf msg)) as [u [e|]];
    destruct (Session u) as [s|]; run;
    try (split; [reflexivity|repeat constructor]).
  all: destruct (heap w !! client) as [c|]; cbn;
    try (split; [reflexivity|repeat constructor]).
  all: destruct (clients (srv w) !! s) as [user|]; cbn;
    try (split; [reflexivity|repeat constructor]).
  all: destruct (heap w !! user) as [cu|]; cbn;
    try (split; [reflexivity|repeat constructor]).
  all: destruct (clients (srv w) !! CSession c) as [actor|]; cbn;
    try (split; [reflexivity|repeat constructor]).
  all: destruct (heap w !! actor) as [ca|]; cbn;
    try (split; [reflexivity|repeat constructor]).
  all: destruct (ChannelId u), (Comment u), (Texture u), (UserId u); cbn.
  all: repeat match goal with
         | |- context [if ?b then _ else _] => destruct b; cbn
         end.
  all: split; [reflexivity|repeat constructor].
Qed.

(** *** handleUserStatsMessage *)

(** X14: [handleUserStatsMessage] always returns with the store
    unchanged and sends nothing; a decoder error is handed to
    [client.Panic] and the handler still goes on to its log line. *)
Theorem handleUserStatsMessage_logs (client : positive) (msg : Message)
    (w : World) :
  handleUserStatsMessage UserStats unmarshalUserStats client msg w
  = Returned tt w
      (decodeFault client (snd (unmarshalUserStats (buf msg)))
       ++ [ELog "UserStatsMessage"]).
Proof.
  unfold handleUserStatsMessage.
  destruct (unmarshalUserStats (buf msg)) as [stats [e|]]; reflexivity.
Qed.

(** *** More on handleTextMessage *)

Lemma sent_map_send (k : Z) (m : ProtoMsg) (users : list positive) :
  sent (map (fun u => ESend u k m) users) = map (fun u => (u, k, m)) users.
Proof.
  induction users as [|u rest IH]; [reflexivity|].
  cbn. unfold sent in IH. rewrite IH. reflexivity.
Qed.

Lemma sent_app (t1 t2 : list Event) : sent (t1 ++ t2) = sent t1 ++ sent t2.
Proof. unfold sent. apply omap_app. Qed.

(** Sequencing keeps a frame: a step that writes and sends nothing,
    followed by steps that write nothing and send only messages in [Q]. *)
Lemma bind_frame {A B : Type} (m : M A) (k : A -> M B) (w : World)
    (Q : positive * Z * ProtoMsg -> Prop) :
  finalWorld (m w) = w /\ sent (traceOf (m w)) = [] ->
  (forall a : A,
      finalWorld (k a w) = w /\ Forall Q (sent (traceOf (k a w)))) ->
  finalWorld (bind m k w) = w /\ Forall Q (sent (traceOf (bind m k w))).
Proof.
  intros [Hw Ht] Hk. unfold bind.
  destruct (m w) as [a w1 t1|p w1 t1]; cbn [finalWorld traceOf] in Hw, Ht;
    subst w1.
  - destruct (Hk a) as [Hw2 Ht2].
    destruct (k a w) as [b w2 t2|p w2 t2]; cbn [finalWorld traceOf] in *;
      subst w2.
    all: split; [reflexivity|]; rewrite sent_app, Ht; exact Ht2.
  - cbn [finalWorld traceOf]. split; [reflexivity|]. rewrite Ht. constructor.
Qed.

(** The first loop writes nothing and sends nothing, however it ends. *)
Lemma lookupUsers_frame (sessions : list Z) (acc : list positive)
    (w : World) :
  finalWorld (lookupUsers sessions acc w) = w
  /\ sent (traceOf (lookupUsers sessions acc w)) = [].
Proof.
  revert acc. induction sessions as [|s rest IH]; intros acc.
  - split; reflexivity.
  - cbn [lookupUsers]. run.
    destruct (clients (srv w) !! s) as [u|].
    + destruct (IH (acc ++ [u])) as [Hw Ht].
      destruct (lookupUsers rest (acc ++ [u]) w); cbn in *; auto.
    + split; reflexivity.
Qed.

(** The second loop writes nothing, and what it sends are relayed
    TextMessages. *)
Lemma forEach_frame (client : positive) (body : option string)
    (users : list positive) (w : World) :
  let o :=
    forEach users (fun user =>
      let* c := deref (Some client) in
      sendProtoMessage user MessageTextMessage
        (PTextMessage (mkTextMessage (Some (CSession c)) [] body))) w in
  finalWorld o = w /\ Forall (isRelay body) (sent (traceOf o)).
Proof.
  intros o. subst o.
  destruct (heap w !! client) as [c|] eqn:Hc.
  - pose proof (forEach_relay client c (mkTextMessage None [] body) users w Hc)
      as E.
    cbn [TMessage] in E. rewrite E. cbn [finalWorld traceOf].
    split; [reflexivity|]. unfold relayed. rewrite sent_map_send.
    apply Forall_forall. intros x Hx.
    apply list_elem_of_fmap in Hx as (u & -> & _).
    split; [reflexivity|]. cbn. eauto.
  - destruct users as [|u rest].
    + split; [reflexivity|constructor].
    + match goal with
      | |- context [forEach ?us ?f w] =>
          assert (forEach us f w = Panicked NilDereference w []) as ->
      end.
      { cbn [forEach]. unfold bind at 1. unfold bind at 1.
        unfold deref at 1. rewrite Hc. reflexivity. }
      split; [reflexivity|constructor].
Qed.

(** The handler on destinations that resolve to [users]. *)
Lemma handleTextMessage_resolved (client : positive) (msg : Message)
    (txtmsg : TextMessage) (c : Client) (users : list positive) (w : World) :
  unmarshalTextMessage (buf msg) = (txtmsg, None) ->
  heap w !! client = Some c ->
  Forall2 (fun s u => clients (srv w) !! s = Some u) (TSession txtmsg) users ->
  handleTextMessage unmarshalTextMessage client msg w
  = Returned tt w
      (map (fun u => ESend u MessageTextMessage (relayed c txtmsg)) users).
Proof.
  intros Hdec Hc Hus. unfold handleTextMessage. rewrite Hdec.
  unfold bind at 1. rewrite (lookupUsers_resolved _ _ [] _ Hus).
  rewrite app_nil_l. rewrite (forEach_relay _ _ _ _ _ Hc). reflexivity.
Qed.

(** X6: for a TextMessage that decodes, from a client that is allocated,
    the fan-out is all or nothing: either every destination is
    registered, the handler returns and one message per listed
    destination has been sent, or some destination is not registered,
    the handler panics and no message at all has been sent. *)
Theorem handleTextMessage_all_or_nothing (client : positive) (msg : Message)
    (txtmsg : TextMessage) (c : Client) (w : World) :
  unmarshalTextMessage (buf msg) = (txtmsg, None) ->
  heap w !! client = Some c ->
  let o := handleTextMessage unmarshalTextMessage client msg w in
  (Forall (fun s => is_Some (clients (srv w) !! s)) (TSession txtmsg)
   /\ returns o = true
   /\ length (sent (traceOf o)) = length (TSession txtmsg))
  \/ (Exists (fun s => clients (srv w) !! s = None) (TSession txtmsg)
      /\ returns o = false
      /\ sent (traceOf o) = []).
Proof.
  intros Hdec Hc o. subst o.
  destruct (decide (Forall (fun s => is_Some (clients (srv w) !! s))
                      (TSession txtmsg))) as [Hall|Hnot].
  - left. split; [exact Hall|].
    destruct (resolve_all _ _ Hall) as [users Hus].
    rewrite (handleTextMessage_resolved _ _ _ _ _ _ Hdec Hc Hus).
    cbn [returns traceOf]. split; [reflexivity|].
    rewrite sent_map_send, length_map.
    symmetry. exact (Forall2_length _ _ _ Hus).
  - right.
    assert (Exists (fun s => clients (srv w) !! s = None) (TSession txtmsg))
      as Hex.
    { apply not_Forall_Exists in Hnot; [|intros s; apply _].
      eapply Exists_impl; [exact Hnot|].
      intros s Hs. cbn in Hs.
      destruct (clients (srv w) !! s); [exfalso; eauto|reflexivity]. }
    split; [exact Hex|].
    rewrite (handleTextMessage_panics_on_missing _ _ _ _ Hdec Hex).
    split; reflexivity.
Qed.

(** X7: [handleTextMessage] never writes to the store, for any request
    and however it ends; and every message it sends is a TextMessage
    that carries the body of the request and no destination list. *)
Theorem handleTextMessage_frame (client : positive) (msg : Message)
    (w : World) :
  let o := handleTextMessage unmarshalTextMessage client msg w in
  finalWorld o = w
  /\ Forall (isRelay (TMessage (fst (unmarshalTextMessage (buf msg)))))
       (sent (traceOf o)).
Proof.
  unfold handleTextMessage.
  destruct (unmarshalTextMessage (buf msg)) as [txtmsg [e|]]; cbn [fst].
  - split; [reflexivity|constructor].
  - apply bind_frame.
    + apply lookupUsers_frame.
    + intros users. apply forEach_frame.
Qed.

(** X8: the fan-out keeps multiplicity: with every destination
    registered, a client gets as many messages as there are entries of
    the destination list that are registered to it; a session listed
    twice gets the message twice. *)
Theorem handleTextMessage_multiplicity (client : positive) (msg : Message)
    (txtmsg : TextMessage) (c : Client) (w : World) (u : positive) :
  unmarshalTextMessage (buf msg) = (txtmsg, None) ->
  heap w !! client = Some c ->
  Forall (fun s => is_Some (clients (srv w) !! s)) (TSession txtmsg) ->
  length
    (sentTo u (traceOf (handleTextMessage unmarshalTextMessage client msg w)))
  = length
      (filter (fun s => clients (srv w) !! s = Some u) (TSession txtmsg)).
Proof.
  intros Hdec Hc Hall.
  destruct (resolve_all _ _ Hall) as [users Hus].
  rewrite (handleTextMessage_resolved _ _ _ _ _ _ Hdec Hc Hus).
  cbn [traceOf]. unfold sentTo. rewrite sent_map_send.
  induction Hus as [|s v sessions users Hs _ IH]; [reflexivity|].
  cbn [map]. rewrite !filter_cons. cbn [fst].
  destruct (decide (v = u)) as [->|Hne].
  - rewrite decide_True by exact Hs. cbn [length]. f_equal.
    apply IH. inversion Hall; assumption.
  - rewrite decide_False by congruence.
    apply IH. inversion Hall; assumption.
Qed.

(** *** More on handleCryptSetup and handlePingMessage *)

Lemma copy_length (dst src : list byte) :
  length (fst (copy dst src)) = length dst.
Proof.
  unfold copy. cbn [fst].
  rewrite length_app, length_take, length_drop. lia.
Qed.

Lemma CryptFrame_refl (client : positive) (w : World) :
  CryptFrame client w w.
Proof. repeat split; eauto 10. Qed.

(** X9: what [handleCryptSetup] leaves alone, for any request and
    however it ends: the registry and the channels, every client other
    than the requesting one, and of the requesting client its session,
    its encrypt IV and its good, late and lost counters; its decrypt IV
    keeps its length. *)
Theorem handleCryptSetup_frame (client : positive) (msg : Message)
    (w : World) :
  CryptFrame client w
    (finalWorld
       (handleCryptSetup AESBlockSize counterTy unmarshalCryptSetup
          client msg w)).
Proof.
  unfold handleCryptSetup.
  destruct (unmarshalCryptSetup (buf msg)) as [cs [e|]].
  { apply CryptFrame_refl. }
  destruct (Nat.eqb (length (ClientNonce cs)) 0).
  - run. destruct (heap w !! client) as [c|]; cbn.
    + destruct (copy (repeat x00 AESBlockSize) (EncryptIV (crypt c)))
        as [nonce n].
      destruct (negb (Nat.eqb n AESBlockSize)); cbn; apply CryptFrame_refl.
    + apply CryptFrame_refl.
  - destruct (negb (Nat.eqb (length (ClientNonce cs)) AESBlockSize)).
    { run. apply CryptFrame_refl. }
    run. destruct (heap w !! client) as [c|] eqn:Hc; cbn.
    2:{ apply CryptFrame_refl. }
    rewrite lookup_insert_eq. cbn.
    pose proof (copy_length (DecryptIV (crypt c)) (ClientNonce cs)) as Hlen.
    destruct (copy (DecryptIV (crypt c)) (ClientNonce cs)) as [iv n].
    cbn [fst] in Hlen.
    destruct (negb (Nat.eqb n AESBlockSize)); cbn.
    all: rewrite insert_insert_eq.
    all: split; [reflexivity|].
    all: split; [intros l Hl; apply lookup_insert_ne; congruence|].
    all: split; [cbn; intros Hn; congruence|].
    all: cbn; intros c0 Hc0; rewrite Hc in Hc0; injection Hc0 as <-.
    all: eexists; split; [apply lookup_insert_eq|].
    all: cbn; repeat split; exact Hlen.
Qed.

(** X10: what [handleCryptSetup] sends, for any request: at most one
    message, a CryptSetup to the requesting client; a request that fails
    to decode or carries a nonce, of whatever length, gets no reply. *)
Theorem handleCryptSetup_replies (client : positive) (msg : Message)
    (w : World) :
  let o :=
    handleCryptSetup AESBlockSize counterTy unmarshalCryptSetup client msg w in
  (sent (traceOf o) = []
   \/ exists reply : CryptSetup,
       sent (traceOf o) = [(client, MessageCryptSetup, PCryptSetup reply)]
       /\ unmarshalCryptSetup (buf msg)
          = (withClientNonce reply [], None))
  /\ (ClientNonce (fst (unmarshalCryptSetup (buf msg))) <> [] ->
      sent (traceOf o) = [])
  /\ (is_Some (snd (unmarshalCryptSetup (buf msg))) ->
      sent (traceOf o) = []).
Proof.
  intros o. subst o. unfold handleCryptSetup.
  destruct (unmarshalCryptSetup (buf msg)) as [cs [e|]]; cbn [fst snd].
  { split; [left; reflexivity|]. split; reflexivity. }
  destruct (Nat.eqb (length (ClientNonce cs)) 0) eqn:E0.
  - apply Nat.eqb_eq, nil_length_inv in E0. run.
    destruct (heap w !! client) as [c|]; cbn.
    + destruct (copy (repeat x00 AESBlockSize) (EncryptIV (crypt c)))
        as [nonce n].
      destruct (negb (Nat.eqb n AESBlockSize)); cbn.
      * split; [left; reflexivity|]. split; [congruence|].
        intros [? ?]; discriminate.
      * split; [|split; [congruence|intros [? ?]; discriminate]].
        right. exists (withClientNonce cs nonce). split; [reflexivity|].
        destruct cs as [k cn sn]. cbn in E0. subst cn. reflexivity.
    + split; [left; reflexivity|]. split; [congruence|].
      intros [? ?]; discriminate.
  - destruct (negb (Nat.eqb (length (ClientNonce cs)) AESBlockSize)).
    { run. split; [left; reflexivity|]. split; reflexivity. }
    run. destruct (heap w !! client) as [c|]; cbn.
    2:{ split; [left; reflexivity|]. split; reflexivity. }
    rewrite lookup_insert_eq. cbn.
    destruct (copy (DecryptIV (crypt c)) (ClientNonce cs)) as [iv n].
    destruct (negb (Nat.eqb n AESBlockSize)); cbn.
    all: split; [left; reflexivity|]; split; reflexivity.
Qed.

(** X11: the resync counter is raised before the nonce is copied: when
    the decrypt IV of the client is shorter than a block, a nonce of
    block width still raises the counter, and the decrypt IV takes the
    first bytes of the nonce; the line that logs success is not
    reached. *)
Theorem handleCryptSetup_short_decrypt_iv (client : positive) (msg : Message)
    (cs : CryptSetup) (c : Client) (w : World) :
  unmarshalCryptSetup (buf msg) = (cs, None) ->
  heap w !! client = Some c ->
  (0 < AESBlockSize)%nat ->
  length (ClientNonce cs) = AESBlockSize ->
  (length (DecryptIV (crypt c)) < AESBlockSize)%nat ->
  handleCryptSetup AESBlockSize counterTy unmarshalCryptSetup client msg w
  = Returned tt
      (mkWorld (srv w)
         (<[client :=
              resynced counterTy c
                (take (length (DecryptIV (crypt c))) (ClientNonce cs))]>
            (heap w)))
      [ELog "Received client nonce"].
Proof.
  intros Hdec Hc Hpos Hlen Hiv.
  unfold handleCryptSetup. rewrite Hdec.
  assert (Nat.eqb (length (ClientNonce cs)) 0 = false) as ->
    by (apply Nat.eqb_neq; lia).
  rewrite Hlen, Nat.eqb_refl. cbn [negb].
  unfold bind, logPrintf, emit, deref, store. cbn.
  rewrite Hc. cbn. rewrite lookup_insert_eq. cbn.
  unfold copy. rewrite Hlen, Nat.min_l by lia.
  rewrite drop_all, app_nil_r.
  assert (Nat.eqb (length (DecryptIV (crypt c))) AESBlockSize = false) as ->
    by (apply Nat.eqb_neq; lia).
  cbn. rewrite insert_insert_eq. reflexivity.
Qed.

(** X12: a resync followed by a ping, for one client: after a CryptSetup
    with a nonce of block width, the reply to the next Ping reports a
    resync counter one higher and the other counters as they were; the
    ping is the only message sent. *)
Theorem resync_then_ping (client : positive) (m1 m2 : Message)
    (cs : CryptSetup) (ping : Ping) (c : Client) (w : World) :
  unmarshalCryptSetup (buf m1) = (cs, None) ->
  unmarshalPing (buf m2) = (ping, None) ->
  heap w !! client = Some c ->
  (0 < AESBlockSize)%nat ->
  length (ClientNonce cs) = AESBlockSize ->
  length (DecryptIV (crypt c)) = AESBlockSize ->
  inRange counterTy (Resync (crypt c) + 1) ->
  inRange (Unsigned 32) (Good (crypt c)) ->
  inRange (Unsigned 32) (Late (crypt c)) ->
  inRange (Unsigned 32) (Lost (crypt c)) ->
  inRange (Unsigned 32) (Resync (crypt c) + 1) ->
  sent (traceOf
          ((handleCryptSetup AESBlockSize counterTy unmarshalCryptSetup
              client m1 ;;;
            handlePingMessage unmarshalPing client m2) w))
  = [(client, MessagePing,
      PPing (mkPing (Timestamp ping)
               (Some (Good (crypt c)))
               (Some (Late (crypt c)))
               (Some (Lost (crypt c)))
               (Some (Resync (crypt c) + 1))))].
Proof.
  intros H1 H2 Hc Hpos Hlen Hiv Hr Hg Hl Ho Hr32.
  unfold bind.
  rewrite (handleCryptSetup_nonce_branch client m1 cs c w H1 Hc); try assumption.
  2:{ intros E. rewrite E in Hlen. cbn in Hlen. lia. }
  rewrite (handlePingMessage_reply client m2 ping
             (resynced counterTy c (ClientNonce cs))).
  2:{ exact H2. }
  2:{ cbn. apply lookup_insert_eq. }
  cbn -[uint32 wrap]. unfold uint32.
  rewrite (wrap_inRange _ _ Hr).
  rewrite (wrap_inRange _ _ Hg), (wrap_inRange _ _ Hl),
    (wrap_inRange _ _ Ho), (wrap_inRange _ _ Hr32).
  reflexivity.
Qed.

(** X13: the counters of a Ping reply are the counters of the client
    converted to [uint32]: their values modulo 2^32, so within the range
    of the 32-bit fields whatever the counters hold; the counters that
    the request carries are not echoed. *)
Theorem handlePingMessage_counters_mod (client : positive) (msg : Message)
    (ping : Ping) (c : Client) (w : World) :
  unmarshalPing (buf msg) = (ping, None) ->
  heap w !! client = Some c ->
  exists reply : Ping,
    handlePingMessage unmarshalPing client msg w
    = Returned tt w [ESend client MessagePing (PPing reply)]
    /\ Timestamp reply = Timestamp ping
    /\ PGood reply = Some (Good (crypt c) mod 2 ^ 32)
    /\ PLate reply = Some (Late (crypt c) mod 2 ^ 32)
    /\ PLost reply = Some (Lost (crypt c) mod 2 ^ 32)
    /\ PResync reply = Some (Resync (crypt c) mod 2 ^ 32)
    /\ Forall (fun f => exists v : Z, f = Some v /\ 0 <= v < 2 ^ 32)
         [PGood reply; PLate reply; PLost reply; PResync reply].
Proof.
  intros Hdec Hc. eexists. split.
  - apply (handlePingMessage_reply client msg ping c w Hdec Hc).
  - cbn [Timestamp PGood PLate PLost PResync]. unfold uint32, wrap.
    repeat split.
    repeat constructor; eexists; (split; [reflexivity|]);
      apply Z.mod_pos_bound; reflexivity.
Qed.

End Properties.

(** ** The properties on the small server *)

(** Alice sends a nonce of block width: her decrypt IV becomes the nonce
    and her resync counter goes from 4 to 5. *)
Lemma handleCryptSetup_resync_witness :
  exists c' : Client,
    handleCryptSetup 16 (Signed 64) (Ex.decodeAs Ex.resyncRequest) 1
      (Ex.message MessageCryptSetup) Ex.world
    = Returned tt
        (mkWorld (srv Ex.world) (<[1%positive := c']> (heap Ex.world)))
        [ELog "Received client nonce"; ELog "Crypt re-sync successful"]
    /\ DecryptIV (crypt c') = ClientNonce Ex.resyncRequest
    /\ Resync (crypt c') = Resync (crypt Ex.alice) + 1
    /\ EncryptIV (crypt c') = EncryptIV (crypt Ex.alice)
    /\ (Good (crypt c'), Late (crypt c'), Lost (crypt c'))
       = (Good (crypt Ex.alice), Late (crypt Ex.alice), Lost (crypt Ex.alice)).
Proof.
  apply (handleCryptSetup_resync 16 (Signed 64)
           (Ex.decodeAs Ex.resyncRequest) 1 (Ex.message MessageCryptSetup)
           Ex.resyncRequest Ex.alice Ex.world).
  - reflexivity.
  - reflexivity.
  - lia.
  - reflexivity.
  - reflexivity.
  - vm_compute. split; [discriminate | reflexivity].
Defined.

(** Alice sends a nonce of 5 bytes: nothing happens but a log line. *)
Lemma handleCryptSetup_bad_nonce_witness :
  handleCryptSetup 16 (Signed 64) (Ex.decodeAs Ex.badRequest) 1
    (Ex.message MessageCryptSetup) Ex.world
  = Returned tt Ex.world [ELog "Received client nonce"].
Proof.
  apply (handleCryptSetup_bad_nonce 16 (Signed 64)
           (Ex.decodeAs Ex.badRequest) 1 (Ex.message MessageCryptSetup)
           Ex.badRequest Ex.world).
  - reflexivity.
  - discriminate.
  - vm_compute. lia.
Defined.

(** Alice asks for the nonce of the server and gets her encrypt IV; Dave,
    whose encrypt IV is 4 bytes long, gets nothing. *)
Lemma handleCryptSetup_request_nonce_witness :
  handleCryptSetup 16 (Signed 64) (Ex.decodeAs Ex.nonceRequest) 1
    (Ex.message MessageCryptSetup) Ex.world
  = Returned tt Ex.world
      [ELog "Requested crypt-nonce resync";
       ESend 1%positive MessageCryptSetup
         (PCryptSetup (mkCryptSetup [] Ex.encIV []))]
  /\ handleCryptSetup 16 (Signed 64) (Ex.decodeAs Ex.nonceRequest) 1
       (Ex.message MessageCryptSetup) Ex.worldShortIV
     = Returned tt Ex.worldShortIV [ELog "Requested crypt-nonce resync"].
Proof.
  split.
  - apply (handleCryptSetup_request_nonce 16 (Signed 64)
             (Ex.decodeAs Ex.nonceRequest) 1 (Ex.message MessageCryptSetup)
             Ex.nonceRequest Ex.alice Ex.world);
      reflexivity.
  - apply (handleCryptSetup_request_nonce 16 (Signed 64)
             (Ex.decodeAs Ex.nonceRequest) 1 (Ex.message MessageCryptSetup)
             Ex.nonceRequest Ex.dave Ex.worldShortIV);
      [reflexivity | reflexivity | reflexivity | vm_compute; lia].
Defined.

(** Alice pings: the reply echoes the timestamp and carries her counters
    10, 2, 1 and 4. *)
Lemma handlePingMessage_echo_witness :
  handlePingMessage (Ex.decodeAs Ex.ping) 1 (Ex.message MessagePing) Ex.world
  = Returned tt Ex.world
      [ESend 1%positive MessagePing
         (PPing (mkPing (Some 123456) (Some 10) (Some 2) (Some 1) (Some 4)))].
Proof.
  apply (handlePingMessage_echo (Ex.decodeAs Ex.ping) 1
           (Ex.message MessagePing) Ex.ping Ex.alice Ex.world).
  - reflexivity.
  - reflexivity.
  - vm_compute. split; [discriminate | reflexivity].
  - vm_compute. split; [discriminate | reflexivity].
  - vm_compute. split; [discriminate | reflexivity].
  - vm_compute. split; [discriminate | reflexivity].
Defined.

(** Alice sets self-mute and a comment on Bob: the request is dropped. *)
Lemma handleUserStateMessage_self_targeting_witness :
  selfTargeting (Some 1%positive) (Some 2%positive) Ex.muteBob = true
  /\ handleUserStateMessage 64 (Ex.decodeAs Ex.muteBob) 1
       (Ex.message MessageUserState) Ex.world
     = Returned tt Ex.world (userStateLog Ex.muteBob)
  /\ sent (userStateLog Ex.muteBob) = [].
Proof.
  apply (handleUserStateMessage_self_targeting 64 (Ex.decodeAs Ex.muteBob) 1
           (Ex.message MessageUserState) Ex.muteBob 5 Ex.alice Ex.alice
           Ex.bob 1 2 Ex.world).
  - reflexivity.
  - reflexivity.
  - reflexivity.
  - reflexivity.
  - reflexivity.
  - reflexivity.
  - reflexivity.
  - vm_compute. discriminate.
  - reflexivity.
Defined.

(** C2: Alice names session 99, which nobody holds: the handler reads
    [user.Session] through the nil pointer that the lookup gave and ends
    in a run-time panic, where the request should be dropped silently. *)
Theorem handleUserStateMessage_unknown_session_panics :
  clients (srv Ex.world) !! 99 = None
  /\ handleUserStateMessage 64 (Ex.decodeAs Ex.unknownUser) 1
       (Ex.message MessageUserState) Ex.world
     = Panicked NilDereference Ex.world
         [ELog "UserState!"; ELog "actor = %v"; ELog "user = %v"].
Proof.
  split; [reflexivity|].
  apply (handleUserStateMessage_unknown_user 64 (Ex.decodeAs Ex.unknownUser)
           1 (Ex.message MessageUserState) Ex.unknownUser 99 Ex.alice
           Ex.world); reflexivity.
Qed.

(** Alice asks to be registered with user id 0: nothing is written. *)
Lemma handleUserStateMessage_registration_witness :
  let o := handleUserStateMessage 64 (Ex.decodeAs Ex.registerSelf) 1
             (Ex.message MessageUserState) Ex.world in
  finalWorld o = Ex.world /\ sent (traceOf o) = [].
Proof.
  apply (handleUserStateMessage_registration 64
           (Ex.decodeAs Ex.registerSelf) 1 (Ex.message MessageUserState)
           Ex.registerSelf 0 Ex.world).
  - reflexivity.
  - reflexivity.
  - lia.
Defined.

(** C9 fails on the code: Alice moves herself to channel 1, which exists
    and has no limit, and everybody holds every permission, so all the
    checks of a move pass; the handler returns with the store it started
    from, in which Alice is still in the root channel. *)
Lemma handleUserStateMessage_channel_move_counterexample :
  moveChecksPass Ex.allowAll Ex.world 1 1 Ex.alice 1 = true
  /\ handleUserStateMessage 64 (Ex.decodeAs Ex.moveSelf) 1
       (Ex.message MessageUserState) Ex.world
     = Returned tt Ex.world (userStateLog Ex.moveSelf)
  /\ ~ movedTo Ex.world 1 Ex.alice 1.
Proof.
  split; [reflexivity|]. split.
  - apply (handleUserStateMessage_returns 64 (Ex.decodeAs Ex.moveSelf) 1
             (Ex.message MessageUserState) Ex.moveSelf 3 Ex.alice Ex.alice
             Ex.alice 1 1 Ex.world); reflexivity.
  - intros [(cu' & Hcu & Hch) _].
    vm_compute in Hcu. injection Hcu as <-. vm_compute in Hch. discriminate.
Qed.

(** Alice moves herself to channel 1: the handler logs the destination
    and returns; nothing is written. *)
Lemma handleUserStateMessage_channel_id_witness :
  let o := handleUserStateMessage 64 (Ex.decodeAs Ex.moveSelf) 1
             (Ex.message MessageUserState) Ex.world in
  finalWorld o = Ex.world
  /\ sent (traceOf o) = []
  /\ o = Returned tt Ex.world (userStateLog Ex.moveSelf)
  /\ In (ELog "dstChan = %v") (userStateLog Ex.moveSelf).
Proof.
  destruct (handleUserStateMessage_channel_id 64 (Ex.decodeAs Ex.moveSelf) 1
              (Ex.message MessageUserState) Ex.moveSelf 1 Ex.world
              eq_refl eq_refl) as (Hw & Hs & Hret).
  split; [exact Hw|]. split; [exact Hs|].
  apply (Hret 3 Ex.alice Ex.alice Ex.alice 1%positive 1%positive);
    reflexivity.
Defined.

(** The registry of the small server is consistent. *)
Lemma Ex_world_consistent : RegistryConsistent Ex.world.
Proof.
  intros s l H. cbn in H.
  repeat (apply lookup_insert_Some in H as [[<- <-]|[_ H]];
          [eexists; split; reflexivity|]).
  rewrite lookup_empty in H. discriminate.
Defined.

(** Alice writes to sessions 5 and 7: Bob and Carol get one message each,
    with actor 3, and Alice gets none. *)
Lemma handleTextMessage_fanout_witness :
  exists users : list positive,
    Forall2 (fun s u => clients (srv Ex.world) !! s = Some u) [5; 7] users
    /\ handleTextMessage (Ex.decodeAs Ex.toBobAndCarol) 1
         (Ex.message MessageTextMessage) Ex.world
       = Returned tt Ex.world
           (map (fun u =>
                   ESend u MessageTextMessage
                     (PTextMessage
                        (mkTextMessage (Some 3) [] (Some "hi"%string))))
              users)
    /\ 1%positive ∉ users.
Proof.
  destruct (handleTextMessage_fanout (Ex.decodeAs Ex.toBobAndCarol) 1
              (Ex.message MessageTextMessage) Ex.toBobAndCarol Ex.alice
              Ex.world) as (users & Hus & Hrun & Hsender).
  - reflexivity.
  - reflexivity.
  - repeat constructor; eexists; reflexivity.
  - exists users. split; [exact Hus|]. split; [exact Hrun|].
    apply Hsender.
    + exact Ex_world_consistent.
    + cbn. intros Hin. apply list_elem_of_In in Hin. cbn in Hin.
      destruct Hin as [E|[E|[]]]; discriminate.
Defined.

(** C3 fails on the code: Alice writes to session 5 and to session 99,
    which nobody holds; the handler ends in a panic, and Bob, whose
    session is registered, has got nothing. *)
Lemma handleTextMessage_unknown_destination_counterexample :
  clients (srv Ex.world) !! 99 = None
  /\ returns (handleTextMessage (Ex.decodeAs Ex.toBobAndNobody) 1
               (Ex.message MessageTextMessage) Ex.world) = false
  /\ sent (traceOf (handleTextMessage (Ex.decodeAs Ex.toBobAndNobody) 1
                      (Ex.message MessageTextMessage) Ex.world)) = [].
Proof.
  split; [reflexivity|].
  rewrite (handleTextMessage_panics_on_missing
             (Ex.decodeAs Ex.toBobAndNobody) 1 (Ex.message MessageTextMessage)
             Ex.toBobAndNobody Ex.world eq_refl).
  - split; reflexivity.
  - right. left. reflexivity.
Qed.

(** Alice writes to session 5 and to session 99: the panic of
    [log.Panic], the store unchanged. *)
Lemma handleTextMessage_unknown_destination_witness :
  handleTextMessage (Ex.decodeAs Ex.toBobAndNobody) 1
    (Ex.message MessageTextMessage) Ex.world
  = Panicked (LogPanic missingClient) Ex.world [ELog missingClient].
Proof.
  apply (handleTextMessage_unknown_destination
           (Ex.decodeAs Ex.toBobAndNobody) 1 (Ex.message MessageTextMessage)
           Ex.toBobAndNobody Ex.world).
  - reflexivity.
  - right. left. reflexivity.
Defined.

(** ** More properties on the small server *)

(** Three requests of Alice that fail to decode: each is reported to her
    and nothing else happens. *)
Lemma decode_error_ends_handler_witness :
  handleCryptSetup 16 (Signed 64) (Ex.failAs Ex.resyncRequest "bad") 1
    (Ex.message MessageCryptSetup) Ex.world
  = Returned tt Ex.world [EClientPanic 1 "bad"]
  /\ handlePingMessage (Ex.failAs Ex.ping "bad") 1
       (Ex.message MessagePing) Ex.world
     = Returned tt Ex.world [EClientPanic 1 "bad"]
  /\ handleTextMessage (Ex.failAs Ex.toBobAndNobody "bad") 1
       (Ex.message MessageTextMessage) Ex.world
     = Returned tt Ex.world [EClientPanic 1 "bad"].
Proof.
  apply (decode_error_ends_handler 16 (Signed 64)
           (Ex.failAs Ex.resyncRequest "bad") (Ex.failAs Ex.ping "bad")
           (Ex.failAs Ex.toBobAndNobody "bad") 1
           (Ex.message MessageCryptSetup) (Ex.message MessagePing)
           (Ex.message MessageTextMessage)
           Ex.resyncRequest Ex.ping Ex.toBobAndNobody "bad" "bad" "bad"
           Ex.world); reflexivity.
Defined.


(** A request that names no session, from a client that is not even
    allocated, on an empty server. *)
Lemma handleUserStateMessage_without_session_witness :
  handleUserStateMessage 64 (Ex.decodeAs Ex.noSession) 7
    (Ex.message MessageUserState) (mkWorld (mkServer ∅ ∅) ∅)
  = Returned tt (mkWorld (mkServer ∅ ∅) ∅)
      [ELog "UserState!"; ELog "UserState without session."].
Proof.
  apply (handleUserStateMessage_without_session 64
           (Ex.decodeAs Ex.noSession) 7 (Ex.message MessageUserState)
           Ex.noSession None (mkWorld (mkServer ∅ ∅) ∅));
    reflexivity.
Defined.



(** Alice writes to Bob and Carol: all of it is delivered. *)
Lemma handleTextMessage_all_or_nothing_witness :
  let o := handleTextMessage (Ex.decodeAs Ex.toBobAndCarol) 1
             (Ex.message MessageTextMessage) Ex.world in
  (Forall (fun s => is_Some (clients (srv Ex.world) !! s)) [5; 7]
   /\ returns o = true
   /\ length (sent (traceOf o)) = 2%nat)
  \/ (Exists (fun s => clients (srv Ex.world) !! s = None) [5; 7]
      /\ returns o = false
      /\ sent (traceOf o) = []).
Proof.
  apply (handleTextMessage_all_or_nothing (Ex.decodeAs Ex.toBobAndCarol) 1
           (Ex.message MessageTextMessage) Ex.toBobAndCarol Ex.alice
           Ex.world); reflexivity.
Defined.

(** Alice writes to herself, to Bob and to herself again: she gets the
    message twice. *)
Lemma handleTextMessage_multiplicity_witness :
  length
    (sentTo 1 (traceOf (handleTextMessage (Ex.decodeAs Ex.toSelfTwice) 1
                          (Ex.message MessageTextMessage) Ex.world)))
  = 2%nat.
Proof.
  rewrite (handleTextMessage_multiplicity (Ex.decodeAs Ex.toSelfTwice) 1
             (Ex.message MessageTextMessage) Ex.toSelfTwice Ex.alice
             Ex.world 1).
  - reflexivity.
  - reflexivity.
  - reflexivity.
  - repeat constructor; eexists; reflexivity.
Defined.

(** Erin, whose decrypt IV is 4 bytes long, sends a nonce of 16 bytes:
    her resync counter goes from 6 to 7, her decrypt IV takes 4 bytes of
    the nonce, and success is not logged. *)
Lemma handleCryptSetup_short_decrypt_iv_witness :
  handleCryptSetup 16 (Signed 64) (Ex.decodeAs Ex.resyncRequest) 1
    (Ex.message MessageCryptSetup) Ex.worldErin
  = Returned tt
      (mkWorld (srv Ex.worldErin)
         (<[1%positive :=
              mkClient 11
                (mkCryptState Ex.encIV (repeat xaa 4) 4294967297 (-1) 0 7)
                0]>
            (heap Ex.worldErin)))
      [ELog "Received client nonce"].
Proof.
  apply (handleCryptSetup_short_decrypt_iv 16 (Signed 64)
           (Ex.decodeAs Ex.resyncRequest) 1 (Ex.message MessageCryptSetup)
           Ex.resyncRequest Ex.erin Ex.worldErin).
  - reflexivity.
  - reflexivity.
  - lia.
  - reflexivity.
  - vm_compute. lia.
Defined.

(** Alice resyncs and then pings: the reply reports 10, 2, 1 and a
    resync counter of 5. *)
Lemma resync_then_ping_witness :
  sent (traceOf
          ((handleCryptSetup 16 (Signed 64) (Ex.decodeAs Ex.resyncRequest) 1
              (Ex.message MessageCryptSetup) ;;;
            handlePingMessage (Ex.decodeAs Ex.ping) 1
              (Ex.message MessagePing)) Ex.world))
  = [(1%positive, MessagePing,
      PPing (mkPing (Some 123456) (Some 10) (Some 2) (Some 1) (Some 5)))].
Proof.
  apply (resync_then_ping 16 (Signed 64) (Ex.decodeAs Ex.resyncRequest)
           (Ex.decodeAs Ex.ping) 1 (Ex.message MessageCryptSetup)
           (Ex.message MessagePing) Ex.resyncRequest Ex.ping Ex.alice
           Ex.world).
  - reflexivity.
  - reflexivity.
  - reflexivity.
  - lia.
  - reflexivity.
  - reflexivity.
  - vm_compute. split; [discriminate | reflexivity].
  - vm_compute. split; [discriminate | reflexivity].
  - vm_compute. split; [discriminate | reflexivity].
  - vm_compute. split; [discriminate | reflexivity].
  - vm_compute. split; [discriminate | reflexivity].
Defined.

(** Erin, whose good counter is 2^32 + 1 and whose late counter is -1,
    pings: the reply reports 1 and 2^32 - 1. *)
Lemma handlePingMessage_counters_mod_witness :
  exists reply : Ping,
    handlePingMessage (Ex.decodeAs Ex.ping) 1 (Ex.message MessagePing)
      Ex.worldErin
    = Returned tt Ex.worldErin [ESend 1%positive MessagePing (PPing reply)]
    /\ Timestamp reply = Some 123456
    /\ PGood reply = Some (4294967297 mod 2 ^ 32)
    /\ PLate reply = Some (-1 mod 2 ^ 32)
    /\ PLost reply = Some (0 mod 2 ^ 32)
    /\ PResync reply = Some (6 mod 2 ^ 32)
    /\ Forall (fun f => exists v : Z, f = Some v /\ 0 <= v < 2 ^ 32)
         [PGood reply; PLate reply; PLost reply; PResync reply].
Proof.
  apply (handlePingMessage_counters_mod (Ex.decodeAs Ex.ping) 1
           (Ex.message MessagePing) Ex.ping Ex.erin Ex.worldErin);
    reflexivity.
Defined.
